(** * Melange Python client: types and placeholder checker

    A shallow embedding of [clients/python/melange]:
    - [types.py]   : the [ObjectType] and [Relation] aliases and the two
                     frozen, slotted dataclasses [Object] and [Decision];
    - [checker.py] : the [Checker] class, whose constructor and whose
                     [check] coroutine both raise [NotImplementedError].

    Python exceptions are modelled by an outcome type, statements that run
    against some surrounding state by a state-and-exception monad, and an
    [async def] by a coroutine value that only runs when awaited. *)

From Stdlib Require Import String List Bool ZArith.
Import ListNotations.
Local Open Scope string_scope.
Set Warnings "-register-all".

(* ================================================================== *)
(** ** Python runtime: exceptions, outcomes, coroutines               *)
(* ================================================================== *)

Module Py.

(** The exception classes the package can raise, each with its message. *)
Inductive exn : Type :=
| NotImplementedError (msg : string)
| FrozenInstanceError (msg : string)
| AttributeError (msg : string)
| TypeError (msg : string).

(** What running a piece of Python code ends in. *)
Inductive outcome (A : Type) : Type :=
| Return (a : A)
| Raise (e : exn).

Arguments Return {A} a.
Arguments Raise {A} e.

(** Code running against a state [W]: it ends in an outcome and leaves a
    state behind, also when it raises. *)
Definition M (W A : Type) : Type := W -> outcome A * W.

Definition ret {W A : Type} (a : A) : M W A := fun w => (Return a, w).

Definition raise {W A : Type} (e : exn) : M W A := fun w => (Raise e, w).

Definition bind {W A B : Type} (m : M W A) (k : A -> M W B) : M W B :=
  fun w =>
    match m w with
    | (Return a, w') => k a w'
    | (Raise e, w') => (Raise e, w')
    end.

(** [try: r = m  except Exception as e: r = e]: the outcome as a value. *)
Definition attempt {W A : Type} (m : M W A) : M W (outcome A) :=
  fun w => let (r, w') := m w in (Return r, w').

(** Calling an [async def] function runs none of its body: it returns a
    coroutine object, and [await] runs the body. *)
Inductive coroutine (W A : Type) : Type :=
| Coro (body : M W A).

Arguments Coro {W A} body.

Definition await {W A : Type} (c : coroutine W A) : M W A :=
  match c with Coro body => body end.

(** [hash(True) == 1] and [hash(False) == 0]. *)
Definition hash_bool (b : bool) : Z := if b then 1%Z else 0%Z.

End Py.

(* ================================================================== *)
(** ** [melange/types.py]                                             *)
(* ================================================================== *)

Module types.
Import Py.

(** [ObjectType = NewType("ObjectType", str)] and
    [Relation = NewType("Relation", str)]: at run time both are [str]. *)
Definition ObjectType : Type := string.
Definition Relation : Type := string.

(** The arguments of a [@dataclass(...)] decorator that the package's
    classes depend on; what a class does not pass keeps the decorator's
    default ([eq=True], [unsafe_hash=False], [frozen=False],
    [slots=False]). *)
Record dataclass_params : Type := {
  p_eq : bool;
  p_unsafe_hash : bool;
  p_frozen : bool;
  p_slots : bool
}.

(** [class Object], decorated [@dataclass(frozen=True, slots=True)]. *)
Record Object : Type := {
  type : ObjectType;
  id : string
}.

Definition Object_params : dataclass_params :=
  {| p_eq := true; p_unsafe_hash := false; p_frozen := true; p_slots := true |}.

(** [class Decision], decorated [@dataclass(frozen=True, slots=True)]. *)
Record Decision : Type := {
  allowed : bool
}.

Definition Decision_params : dataclass_params :=
  {| p_eq := true; p_unsafe_hash := false; p_frozen := true; p_slots := true |}.

(** The field names of each class, in declaration order
    ([dataclasses.fields]); with [slots=True] they are its [__slots__]. *)
Definition Object_fields : list string := ["type"; "id"].
Definition Decision_fields : list string := ["allowed"].

Definition slots_of (p : dataclass_params) (fields : list string) : option (list string) :=
  if p_slots p then Some fields else None.

(** The values a field of the two classes holds: [type] and [id] are
    [str], [allowed] is [bool]. *)
Inductive atom : Type :=
| AStr (s : string)
| ABool (b : bool).

(** The Python values the two classes are compared with or handed: field
    values and their own instances. *)
Inductive value : Type :=
| VStr (s : string)
| VBool (b : bool)
| VObject (o : Object)
| VDecision (d : Decision).

Inductive pyclass : Type :=
| ClsStr
| ClsBool
| ClsObject
| ClsDecision.

(** [v.__class__]. *)
Definition class_of (v : value) : pyclass :=
  match v with
  | VStr _ => ClsStr
  | VBool _ => ClsBool
  | VObject _ => ClsObject
  | VDecision _ => ClsDecision
  end.

(** [c1 is c2] on classes. *)
Definition pyclass_is (c1 c2 : pyclass) : bool :=
  match c1, c2 with
  | ClsStr, ClsStr
  | ClsBool, ClsBool
  | ClsObject, ClsObject
  | ClsDecision, ClsDecision => true
  | _, _ => false
  end.

Definition class_name (c : pyclass) : string :=
  match c with
  | ClsStr => "str"
  | ClsBool => "bool"
  | ClsObject => "Object"
  | ClsDecision => "Decision"
  end.

(** What the generated dataclass methods and an attribute read get from
    the interpreter, taken as given:
    - [hash_str s]    is [hash(s)] for a [str] (salted per process);
    - [hash_tuple hs] is [hash(t)] for a tuple whose items hash to [hs];
    - [repr_str s]    is [repr(s)] for a [str];
    - [slots_keep_class] says whether the class that [slots=True] hands
      back is still the class object the generated methods hold as
      [cls].  CPython 3.11 builds the slotted class anew, so there it is
      [false];
    - [getattr_class c name] is what reading [name] on an instance of the
      class named [c] ends in when [name] is none of the instance's
      slots: the lookup goes on to the class and its bases
      ([__module__], [__doc__], [__slots__], [__class__], the methods)
      and raises [AttributeError] when they have no such name either.
      Where the attribute found is no string, boolean, [Object] or
      [Decision] (a method, a tuple, a class), the value given here
      stands for it; nothing below looks at what it is. *)
Record builtins : Type := {
  hash_str : string -> Z;
  hash_tuple : list Z -> Z;
  repr_str : string -> string;
  slots_keep_class : bool;
  getattr_class : string -> string -> outcome value
}.

(** An interpreter to run examples with: a string hashes to its length,
    a tuple to a positional sum of its items' hashes, [repr] quotes the
    string, the slotted class is a new one, and of the class-level names
    only [__module__] is there. *)
Definition toy_builtins : builtins :=
  {| hash_str := fun s => Z.of_nat (String.length s);
     hash_tuple := fun hs => fold_left (fun acc h => (31 * acc + h)%Z) hs 7%Z;
     repr_str := fun s => "'" ++ s ++ "'";
     slots_keep_class := false;
     getattr_class := fun c name =>
       if String.eqb name "__module__" then Return (VStr "melange.types")
       else Raise (AttributeError ("'" ++ c ++ "' object has no attribute '" ++ name ++ "'")) |}.

(** *** Equality *)

(** What a rich comparison method returns: a [bool], or the
    [NotImplemented] singleton. *)
Inductive cmp_result : Type :=
| Cmp (b : bool)
| NotImplemented.

(** The field tuples the generated methods build:
    [(self.type,self.id,)] and [(self.allowed,)]. *)
Definition Object_astuple (o : Object) : list atom := [AStr (type o); AStr (id o)].
Definition Decision_astuple (d : Decision) : list atom := [ABool (allowed d)].

(** [==] on field values: a [str] and a [bool] never compare equal. *)
Definition atom_eq (v w : atom) : bool :=
  match v, w with
  | AStr s, AStr t => String.eqb s t
  | ABool b, ABool c => Bool.eqb b c
  | _, _ => false
  end.

(** [==] on tuples: same length and equal items, left to right. *)
Fixpoint tuple_eq (t u : list atom) : bool :=
  match t, u with
  | [], [] => true
  | v :: t', w :: u' => atom_eq v w && tuple_eq t' u'
  | _, _ => false
  end.

(** The [__eq__] that [@dataclass] generates ([eq=True]):
    [if other.__class__ is self.__class__:
         return (self.type,self.id,)==(other.type,other.id,)
     return NotImplemented]. *)
Definition Object___eq__ (self : Object) (other : value) : cmp_result :=
  match other with
  | VObject o =>
      if pyclass_is (class_of other) (class_of (VObject self))
      then Cmp (tuple_eq (Object_astuple self) (Object_astuple o))
      else NotImplemented
  | _ => NotImplemented
  end.

Definition Decision___eq__ (self : Decision) (other : value) : cmp_result :=
  match other with
  | VDecision d =>
      if pyclass_is (class_of other) (class_of (VDecision self))
      then Cmp (tuple_eq (Decision_astuple self) (Decision_astuple d))
      else NotImplemented
  | _ => NotImplemented
  end.

(** [v.__eq__(w)] by the class of [v]. *)
Definition dunder_eq (v w : value) : cmp_result :=
  match v with
  | VObject o => Object___eq__ o w
  | VDecision d => Decision___eq__ d w
  | VStr s => match w with VStr t => Cmp (String.eqb s t) | _ => NotImplemented end
  | VBool b => match w with VBool c => Cmp (Bool.eqb b c) | _ => NotImplemented end
  end.

(** The expression [v == w]: [v.__eq__(w)], then the reflected
    [w.__eq__(v)] when that is [NotImplemented], then identity, which two
    values of classes that refuse each other never have. *)
Definition py_eq (v w : value) : bool :=
  match dunder_eq v w with
  | Cmp b => b
  | NotImplemented =>
      match dunder_eq w v with
      | Cmp b => b
      | NotImplemented => false
      end
  end.

(** *** Hashing *)

(** What [@dataclass] does about [__hash__] for a class that defines none
    of its own (the [_hash_action] table, column "no explicit hash"):
    leave the inherited one, set it to [None] (instances are unhashable),
    or add the generated method. *)
Inductive hash_action : Type :=
| HashInherit
| HashSetNone
| HashAdd.

Definition hash_action_of (p : dataclass_params) : hash_action :=
  if p_unsafe_hash p then HashAdd
  else if p_eq p then (if p_frozen p then HashAdd else HashSetNone)
  else HashInherit.

Section Builtins.

Variable B : builtins.

Definition hash_atom (v : atom) : Z :=
  match v with
  | AStr s => hash_str B s
  | ABool b => hash_bool b
  end.

(** The generated [__hash__]: [return hash((self.type,self.id,))]. *)
Definition Object___hash__ (self : Object) : Z :=
  hash_tuple B (map hash_atom (Object_astuple self)).

(** [return hash((self.allowed,))]. *)
Definition Decision___hash__ (self : Decision) : Z :=
  hash_tuple B (map hash_atom (Decision_astuple self)).

(** [hash(v)]. *)
Definition py_hash (v : value) : Z :=
  match v with
  | VStr s => hash_str B s
  | VBool b => hash_bool b
  | VObject o => Object___hash__ o
  | VDecision d => Decision___hash__ d
  end.

(** *** Attribute access *)

(** [name in ('type','id',)]. *)
Definition name_in (name : string) (fields : list string) : bool :=
  existsb (String.eqb name) fields.

(** [type(self) is cls] inside a method generated for a class decorated
    with [p], on an instance of the class the decorator handed back. *)
Definition type_self_is_cls (p : dataclass_params) : bool :=
  if p_slots p then slots_keep_class B else true.

(** The test both generated frozen methods open with:
    [type(self) is cls or name in (fields)]. *)
Definition frozen_guard (p : dataclass_params) (fields : list string) (name : string) : bool :=
  type_self_is_cls p || name_in name fields.

(** What [super(cls, self)] raises when [self] is no instance of [cls];
    past the test of a frozen method that is the case. *)
Definition super_refuses : exn :=
  TypeError "super(type, obj): obj must be an instance or subtype of type".

(** The [__setattr__] that [frozen=True] generates, run on the instance
    it is called on:
    [if type(self) is cls or name in ('type','id',):
         raise FrozenInstanceError(f"cannot assign to field {name!r}")
     super(cls, self).__setattr__(name, value)]. *)
Definition Object___setattr__ (name : string) (v : value) : M Object unit :=
  fun self =>
    if frozen_guard Object_params Object_fields name
    then raise (FrozenInstanceError ("cannot assign to field " ++ repr_str B name)) self
    else raise super_refuses self.

(** The generated [__delattr__], with the same test,
    [raise FrozenInstanceError(f"cannot delete field {name!r}")] and
    [super(cls, self).__delattr__(name)]. *)
Definition Object___delattr__ (name : string) : M Object unit :=
  fun self =>
    if frozen_guard Object_params Object_fields name
    then raise (FrozenInstanceError ("cannot delete field " ++ repr_str B name)) self
    else raise super_refuses self.

Definition Decision___setattr__ (name : string) (v : value) : M Decision unit :=
  fun self =>
    if frozen_guard Decision_params Decision_fields name
    then raise (FrozenInstanceError ("cannot assign to field " ++ repr_str B name)) self
    else raise super_refuses self.

Definition Decision___delattr__ (name : string) : M Decision unit :=
  fun self =>
    if frozen_guard Decision_params Decision_fields name
    then raise (FrozenInstanceError ("cannot delete field " ++ repr_str B name)) self
    else raise super_refuses self.

(** Reading an attribute, [self.name].  The slots of the instance come
    first: a declared field gives the value stored in it.  With
    [slots=True] the instance has no [__dict__], so every other name is
    looked up on the class, and what that gives is the interpreter's.
    Either way the instance is left as it was. *)
Definition Object_getfield (name : string) : M Object value :=
  fun self =>
    if String.eqb name "type" then ret (VStr (type self)) self
    else if String.eqb name "id" then ret (VStr (id self)) self
    else (getattr_class B (class_name ClsObject) name, self).

Definition Decision_getfield (name : string) : M Decision value :=
  fun self =>
    if String.eqb name "allowed" then ret (VBool (allowed self)) self
    else (getattr_class B (class_name ClsDecision) name, self).

(** The [__init__] that [@dataclass] generates for a frozen class, run on
    an instance that exists already:
    [object.__setattr__(self,'type',type)
     object.__setattr__(self,'id',id)].
    It goes around the frozen [__setattr__] and stores both fields. *)
Definition Object___init__ (type_ : ObjectType) (id_ : string) : M Object unit :=
  fun self => (Return tt, {| type := type_; id := id_ |}).

(** The [__getstate__] that [slots=True] adds to a frozen class:
    [return [getattr(self, f.name) for f in fields(self)]]. *)
Definition Object___getstate__ (self : Object) : list value :=
  [VStr (type self); VStr (id self)].

(** The [__setstate__] that [slots=True] adds to a frozen class:
    [for field, value in zip(fields(self), state):
         object.__setattr__(self, field.name, value)].
    [zip] stops at the shorter of the two: the first item of [state] is
    stored in [type], the second in [id], any further item is ignored,
    and a field with no item keeps its value. *)
Definition Object___setstate__ (state : list string) : M Object unit :=
  fun self =>
    match state with
    | [] => (Return tt, self)
    | [t] => (Return tt, {| type := t; id := id self |})
    | t :: i :: _ => (Return tt, {| type := t; id := i |})
    end.

(** What client code can do with an [Object] it holds: the statements
    and builtins that go through the methods of the class, and the
    generated [__init__], [__getstate__] and [__setstate__] called on
    it. *)
Inductive Object_op : Type :=
| OpSetattr (name : string) (v : value)
| OpDelattr (name : string)
| OpGetfield (name : string)
| OpEq (other : value)
| OpHash
| OpGetstate
| OpInit (type_ : ObjectType) (id_ : string)
| OpSetstate (state : list string).

(** The two operations that store into the fields of an instance. *)
Definition rewrites_fields (op : Object_op) : bool :=
  match op with
  | OpInit _ _ | OpSetstate _ => true
  | _ => false
  end.

(** What an operation hands back when it does not raise. *)
Inductive op_result : Type :=
| RNone
| RValue (v : value)
| RCmp (c : cmp_result)
| RHash (h : Z)
| RState (state : list value).

Definition Object_exec (op : Object_op) : M Object op_result :=
  match op with
  | OpSetattr name v => bind (Object___setattr__ name v) (fun _ => ret RNone)
  | OpDelattr name => bind (Object___delattr__ name) (fun _ => ret RNone)
  | OpGetfield name => bind (Object_getfield name) (fun v => ret (RValue v))
  | OpEq other => fun self => ret (RCmp (Object___eq__ self other)) self
  | OpHash => fun self => ret (RHash (Object___hash__ self)) self
  | OpGetstate => fun self => ret (RState (Object___getstate__ self)) self
  | OpInit type_ id_ => bind (Object___init__ type_ id_) (fun _ => ret RNone)
  | OpSetstate state => bind (Object___setstate__ state) (fun _ => ret RNone)
  end.

(** A client running operations one after the other, each inside its own
    [try]/[except]: the instance after the last one. *)
Fixpoint Object_run (ops : list Object_op) (self : Object) : Object :=
  match ops with
  | [] => self
  | op :: ops' => Object_run ops' (snd (attempt (Object_exec op) self))
  end.

(** What client code can do with a [Decision] it holds. *)
Inductive Decision_op : Type :=
| DOpSetattr (name : string) (v : value)
| DOpDelattr (name : string)
| DOpGetfield (name : string)
| DOpEq (other : value)
| DOpHash.

Definition Decision_exec (op : Decision_op) : M Decision op_result :=
  match op with
  | DOpSetattr name v => bind (Decision___setattr__ name v) (fun _ => ret RNone)
  | DOpDelattr name => bind (Decision___delattr__ name) (fun _ => ret RNone)
  | DOpGetfield name => bind (Decision_getfield name) (fun v => ret (RValue v))
  | DOpEq other => fun self => ret (RCmp (Decision___eq__ self other)) self
  | DOpHash => fun self => ret (RHash (Decision___hash__ self)) self
  end.

Fixpoint Decision_run (ops : list Decision_op) (self : Decision) : Decision :=
  match ops with
  | [] => self
  | op :: ops' => Decision_run ops' (snd (attempt (Decision_exec op) self))
  end.

End Builtins.

End types.

(* ================================================================== *)
(** ** [melange/checker.py]                                           *)
(* ================================================================== *)

Module checker.
Import Py types.

(** Modelled from the spec: the subject of a stored tuple, which the
    package does not declare.  "A tuple's subject field may be a concrete
    Object or a Userset reference", a userset being "(object, relation)". *)
Inductive Subject : Type :=
| SObject (o : Object)
| SUserset (o : Object) (r : Relation).

(** Modelled from the spec: the stored fact "(object, relation, subject)",
    which the package does not declare. *)
Record Tuple : Type := {
  tuple_object : Object;
  tuple_relation : Relation;
  tuple_subject : Subject
}.

(** Modelled from the spec: the rewrite expression that defines a
    relation, which the package does not declare: "one of Direct,
    ComputedUserset(relation), TupleToUserset(tupleset_relation,
    computed_relation), Union(exprs), Intersection(exprs),
    Exclusion(base, subtract)". *)
Inductive Rewrite : Type :=
| Direct
| ComputedUserset (relation : Relation)
| TupleToUserset (tupleset_relation computed_relation : Relation)
| Union (exprs : list Rewrite)
| Intersection (exprs : list Rewrite)
| Exclusion (base subtract : Rewrite).

(** Modelled from the spec: what the PostgreSQL database behind [db]
    holds, which the package does not declare: the written tuples and the
    loaded model, "type -> relation -> rewrite-expression".  It is the
    state every call of the package runs against. *)
Record Database : Type := {
  tuples : list Tuple;
  model : list (ObjectType * Relation * Rewrite)
}.

(** [class Checker].  Its [__init__] assigns no attribute, so an instance
    holds nothing. *)
Record Checker : Type := { }.

(** [Checker.__init__(self, db: Any) -> None]: the body is one [raise];
    the two adjacent string literals are one message. *)
Definition Checker___init__ {Any : Type} (self : Checker) (db : Any) : M Database unit :=
  raise (NotImplementedError
    "Melange Python runtime is not yet implemented. Use the Go runtime (github.com/pthm/melange/melange) for now.").

(** The call [Checker(db)]: allocate the instance, run [__init__] on it,
    and hand the instance back when [__init__] returns. *)
Definition Checker_new {Any : Type} (db : Any) : M Database Checker :=
  let self := Build_Checker in
  bind (Checker___init__ self db) (fun _ => ret self).

(** [async def check(self, subject, relation, object) -> Decision]: the
    call returns a coroutine whose body is [raise
    NotImplementedError("Not implemented")]. *)
Definition Checker_check (self : Checker) (subject : Object) (relation : Relation)
    (object : Object) : coroutine Database Decision :=
  Coro (raise (NotImplementedError "Not implemented")).

(** [await checker.check(subject, relation, object)] run against [db],
    and what it ends in. *)
Definition run_check (self : Checker) (subject : Object) (relation : Relation)
    (object : Object) (db : Database) : outcome Decision * Database :=
  await (Checker_check self subject relation object) db.

Definition check_outcome (self : Checker) (subject : Object) (relation : Relation)
    (object : Object) (db : Database) : outcome Decision :=
  fst (run_check self subject relation object db).

(** The boolean a caller reads off an outcome: [decision.allowed] when
    the call returned, nothing when it raised. *)
Definition decided (r : outcome Decision) : option bool :=
  match r with
  | Return d => Some (allowed d)
  | Raise _ => None
  end.

(** The same call made two times in a row, each under its own
    [try]/[except], the second against the state the first one left. *)
Definition twice {W A : Type} (m : M W A) : M W (outcome A * outcome A) :=
  bind (attempt m) (fun r1 => bind (attempt m) (fun r2 => ret (r1, r2))).

(** The objects and databases of the documented examples and scenarios. *)
Definition user_123 : Object := {| type := "user"; id := "123" |}.
Definition user_999 : Object := {| type := "user"; id := "999" |}.
Definition repository_456 : Object := {| type := "repository"; id := "456" |}.
Definition group_G1 : Object := {| type := "group"; id := "G1" |}.
Definition group_G2 : Object := {| type := "group"; id := "G2" |}.

Definition empty_db : Database := {| tuples := []; model := [] |}.

(** The tuple [(repository:456, can_read, user:123)] has been written,
    and [can_read] on a repository is [Direct]. *)
Definition scenario_db : Database :=
  {| tuples := [ {| tuple_object := repository_456;
                    tuple_relation := "can_read";
                    tuple_subject := SObject user_123 |} ];
     model := [ ("repository", "can_read", Direct) ] |}.

(** [can_read] is [Union(owner, viewer)], and user:123 is a viewer. *)
Definition union_db : Database :=
  {| tuples := [ {| tuple_object := repository_456;
                    tuple_relation := "viewer";
                    tuple_subject := SObject user_123 |} ];
     model := [ ("repository", "owner", Direct);
                ("repository", "viewer", Direct);
                ("repository", "can_read",
                 Union [ComputedUserset "owner"; ComputedUserset "viewer"]) ] |}.

(** Group G1 contains the members of G2, and G2 those of G1. *)
Definition cyclic_db : Database :=
  {| tuples := [ {| tuple_object := group_G1;
                    tuple_relation := "member";
                    tuple_subject := SUserset group_G2 "member" |};
                 {| tuple_object := group_G2;
                    tuple_relation := "member";
                    tuple_subject := SUserset group_G1 "member" |} ];
     model := [ ("group", "member", Direct) ] |}.

(** The usage that the package docstring and the class docstring show:
    [checker = Checker(pool)] and then
    [decision = await checker.check(subject=..., relation=..., object=...)]. *)
Definition documented_usage {Any : Type} (pool : Any) (subject : Object)
    (relation : Relation) (object : Object) : M Database Decision :=
  bind (Checker_new pool)
       (fun checker => await (Checker_check checker subject relation object)).

(** The arguments of one [check] call. *)
Record check_call : Type := {
  call_subject : Object;
  call_relation : Relation;
  call_object : Object
}.

(** A client awaiting one [check] after the other on the same checker,
    each under its own [try]/[except], and collecting how each ended. *)
Fixpoint check_all (self : Checker) (calls : list check_call)
    : M Database (list (outcome Decision)) :=
  match calls with
  | [] => ret []
  | c :: calls' =>
      bind (attempt (await (Checker_check self (call_subject c) (call_relation c)
                                          (call_object c))))
           (fun r => bind (check_all self calls') (fun rs => ret (r :: rs)))
  end.

End checker.

(* ================================================================== *)
(** ** [melange/__init__.py] and the imports of the package           *)
(* ================================================================== *)

Module package.

(** The object a top-level name is bound to, told by where it was
    created: the module whose statement created it and the name it was
    created under.  Importing a name binds the same object again. *)
Record binding : Type := {
  home : string;
  symbol : string
}.

(** A module's namespace; the binding made last shadows the others. *)
Definition namespace : Type := list (string * binding).

Fixpoint lookup (name : string) (ns : namespace) : option binding :=
  match ns with
  | [] => None
  | (n, b) :: ns' => if String.eqb name n then Some b else lookup name ns'
  end.

(** The modules loaded so far ([sys.modules]). *)
Definition modules : Type := list (string * namespace).

Fixpoint find_module (name : string) (loaded : modules) : option namespace :=
  match loaded with
  | [] => None
  | (n, ns) :: loaded' => if String.eqb name n then Some ns else find_module name loaded'
  end.

(** The top-level statements the three files are made of: a
    [from module import a, b], or a statement that creates an object and
    binds a name to it (a [class], a [NewType] alias, an assignment). *)
Inductive stmt : Type :=
| FromImport (module : string) (names : list string)
| Def (name : string).

Inductive import_error : Type :=
| ModuleNotFound (module : string)
| CannotImportName (name module : string).

(** [from module import n1, n2, ...]: each name is looked up in the
    module and bound here, in order; the first one missing raises
    [ImportError]. *)
Fixpoint import_names (module : string) (src : namespace) (names : list string)
    (ns : namespace) : namespace + import_error :=
  match names with
  | [] => inl ns
  | n :: names' =>
      match lookup n src with
      | Some b => import_names module src names' ((n, b) :: ns)
      | None => inr (CannotImportName n module)
      end
  end.

Definition exec_stmt (loaded : modules) (this : string) (s : stmt) (ns : namespace)
    : namespace + import_error :=
  match s with
  | FromImport m names =>
      match find_module m loaded with
      | Some src => import_names m src names ns
      | None => inr (ModuleNotFound m)
      end
  | Def name => inl ((name, {| home := this; symbol := name |}) :: ns)
  end.

(** Running a module's statements from the top. *)
Fixpoint exec_module (loaded : modules) (this : string) (body : list stmt)
    (ns : namespace) : namespace + import_error :=
  match body with
  | [] => inl ns
  | s :: body' =>
      match exec_stmt loaded this s ns with
      | inl ns' => exec_module loaded this body' ns'
      | inr e => inr e
      end
  end.

(** What the standard library offers of the names the package asks for. *)
Definition stdlib : modules :=
  [ ("typing", [ ("Any", {| home := "typing"; symbol := "Any" |});
                 ("NewType", {| home := "typing"; symbol := "NewType" |}) ]);
    ("dataclasses", [ ("dataclass", {| home := "dataclasses"; symbol := "dataclass" |}) ]) ].

(** [types.py], top to bottom. *)
Definition types_py : list stmt :=
  [ FromImport "dataclasses" ["dataclass"];
    FromImport "typing" ["NewType"];
    Def "ObjectType";
    Def "Relation";
    Def "Object";
    Def "Decision" ].

(** [checker.py], top to bottom. *)
Definition checker_py : list stmt :=
  [ FromImport "typing" ["Any"];
    FromImport "melange.types" ["Decision"; "Object"; "Relation"];
    Def "Checker" ].

(** [__init__.py], top to bottom. *)
Definition init_py : list stmt :=
  [ FromImport "melange.types" ["Decision"; "Object"; "ObjectType"; "Relation"];
    FromImport "melange.checker" ["Checker"];
    Def "__all__";
    Def "__version__" ].

(** The value of [__all__]. *)
Definition __all__ : list string :=
  ["Checker"; "Decision"; "Object"; "ObjectType"; "Relation"].

(** [import melange]: [melange.types] is loaded first, then
    [melange.checker], which imports from it, then the rest of
    [__init__.py] runs.  The result is the namespace of each. *)
Definition load_package : (namespace * namespace * namespace) + import_error :=
  match exec_module stdlib "melange.types" types_py [] with
  | inr e => inr e
  | inl types_ns =>
      let loaded1 := ("melange.types", types_ns) :: stdlib in
      match exec_module loaded1 "melange.checker" checker_py [] with
      | inr e => inr e
      | inl checker_ns =>
          let loaded2 := ("melange.checker", checker_ns) :: loaded1 in
          match exec_module loaded2 "melange" init_py [] with
          | inr e => inr e
          | inl melange_ns => inl (types_ns, checker_ns, melange_ns)
          end
      end
  end.

(** [from melange import *]: the names of [__all__], looked up in the
    package. *)
Definition star_import (melange_ns : namespace) : namespace + import_error :=
  import_names "melange" melange_ns __all__ [].

End package.

(* ================================================================== *)
(** ** Properties of [types.py]                                       *)
(* ================================================================== *)

Import Py types.

(** *** Equality of field tuples *)

Lemma atom_eq_true_iff (v w : atom) : atom_eq v w = true <-> v = w.
Proof.
  destruct v as [s | b], w as [t | c]; simpl.
  - rewrite String.eqb_eq. split; congruence.
  - split; discriminate.
  - split; discriminate.
  - rewrite Bool.eqb_true_iff. split; congruence.
Qed.

Lemma tuple_eq_true_iff (t u : list atom) : tuple_eq t u = true <-> t = u.
Proof.
  revert u. induction t as [| v t IH]; intros [| w u]; simpl.
  - tauto.
  - split; discriminate.
  - split; discriminate.
  - rewrite andb_true_iff, atom_eq_true_iff, IH. split.
    + intros [-> ->]. reflexivity.
    + intros E. injection E as -> ->. tauto.
Qed.

Lemma Object_astuple_inj (a b : Object) :
  Object_astuple a = Object_astuple b <-> a = b.
Proof.
  destruct a as [ta ia], b as [tb ib]. unfold Object_astuple. simpl. split.
  - intros E. injection E as -> ->. reflexivity.
  - intros E. injection E as -> ->. reflexivity.
Qed.

Lemma Decision_astuple_inj (a b : Decision) :
  Decision_astuple a = Decision_astuple b <-> a = b.
Proof.
  destruct a as [x], b as [y]. unfold Decision_astuple. simpl. split.
  - intros E. injection E as ->. reflexivity.
  - intros E. injection E as ->. reflexivity.
Qed.

(** Between two instances of the same class [==] is the comparison of
    the field tuples: the class test of the generated [__eq__] passes and
    the reflected call is never needed. *)
Lemma py_eq_Object (a b : Object) :
  py_eq (VObject a) (VObject b) = tuple_eq (Object_astuple a) (Object_astuple b).
Proof. reflexivity. Qed.

Lemma py_eq_Decision (a b : Decision) :
  py_eq (VDecision a) (VDecision b) = tuple_eq (Decision_astuple a) (Decision_astuple b).
Proof. reflexivity. Qed.

Lemma py_eq_Object_true_iff (a b : Object) :
  py_eq (VObject a) (VObject b) = true <-> a = b.
Proof. rewrite py_eq_Object, tuple_eq_true_iff. apply Object_astuple_inj. Qed.

Lemma py_eq_Decision_true_iff (a b : Decision) :
  py_eq (VDecision a) (VDecision b) = true <-> a = b.
Proof. rewrite py_eq_Decision, tuple_eq_true_iff. apply Decision_astuple_inj. Qed.

(** C7. [Object] has equality by fields: for two [Object] instances [a]
    and [b], [a == b] is exactly [a.type == b.type and a.id == b.id]; it
    holds if and only if the two have the same [type] and the same [id]. *)
Theorem Object_eq_by_fields (a b : Object) :
  py_eq (VObject a) (VObject b)
    = py_eq (VStr (type a)) (VStr (type b)) && py_eq (VStr (id a)) (VStr (id b))
  /\ (py_eq (VObject a) (VObject b) = true <-> type a = type b /\ id a = id b).
Proof.
  split.
  - rewrite py_eq_Object. unfold Object_astuple, py_eq. simpl.
    now rewrite andb_true_r.
  - rewrite py_eq_Object_true_iff. split.
    + intros ->. split; reflexivity.
    + destruct a as [ta ia], b as [tb ib]. simpl. intros [-> ->]. reflexivity.
Qed.

(** An instance of another class never equals an [Object], whichever
    side it stands on. *)
Lemma Object_ne_other_class (a : Object) (v : value) :
  class_of v <> ClsObject -> py_eq (VObject a) v = false /\ py_eq v (VObject a) = false.
Proof.
  destruct v as [s | b | o | d]; simpl; intros H; try (split; reflexivity).
  now contradiction H.
Qed.

(** *** Frozen instances *)

Section Frozen.

Variable B : builtins.

(** The second disjunct of the generated test catches every declared
    field, whether or not the first one holds. *)
Lemma frozen_guard_field (p : dataclass_params) (fields : list string) (name : string) :
  In name fields -> frozen_guard B p fields name = true.
Proof.
  intros H. unfold frozen_guard, name_in. apply orb_true_iff. right.
  apply existsb_exists. exists name. split; [exact H | apply String.eqb_refl].
Qed.

(** Assigning to a declared field raises [FrozenInstanceError]. *)
Lemma Object___setattr___field (name : string) (v : value) (self : Object) :
  In name Object_fields ->
  Object___setattr__ B name v self
    = (Raise (FrozenInstanceError ("cannot assign to field " ++ repr_str B name)), self).
Proof.
  intros H. unfold Object___setattr__. now rewrite (frozen_guard_field _ _ _ H).
Qed.

Lemma Object___delattr___field (name : string) (self : Object) :
  In name Object_fields ->
  Object___delattr__ B name self
    = (Raise (FrozenInstanceError ("cannot delete field " ++ repr_str B name)), self).
Proof.
  intros H. unfold Object___delattr__. now rewrite (frozen_guard_field _ _ _ H).
Qed.

(** Assigning to any name at all raises, and the instance stays put:
    both branches of the generated method end in a [raise]. *)
Lemma Object___setattr___raises (name : string) (v : value) (self : Object) :
  exists e, Object___setattr__ B name v self = (Raise e, self).
Proof.
  unfold Object___setattr__, raise.
  destruct (frozen_guard B Object_params Object_fields name); eexists; reflexivity.
Qed.

Lemma Object___delattr___raises (name : string) (self : Object) :
  exists e, Object___delattr__ B name self = (Raise e, self).
Proof.
  unfold Object___delattr__, raise.
  destruct (frozen_guard B Object_params Object_fields name); eexists; reflexivity.
Qed.

Lemma Object_getfield_state (name : string) (self : Object) :
  snd (Object_getfield B name self) = self.
Proof.
  unfold Object_getfield.
  destruct (String.eqb name "type"); [reflexivity |].
  destruct (String.eqb name "id"); reflexivity.
Qed.

(** Running to the end or raising, [bind] leaves the state its last
    step left. *)
Lemma bind_ret_state (W A C : Type) (m : M W A) (f : A -> C) (w : W) :
  snd (bind m (fun a => ret (f a)) w) = snd (m w).
Proof.
  unfold bind, ret. destruct (m w) as [[a | e] w']; reflexivity.
Qed.

(** An operation other than [__init__] and [__setstate__] leaves the
    instance it runs on as it was. *)
Lemma Object_exec_state (op : Object_op) (self : Object) :
  rewrites_fields op = false -> snd (Object_exec B op self) = self.
Proof.
  destruct op as [name v | name | name | other | | | t i | state];
    unfold Object_exec; simpl; intros H; try discriminate H.
  - rewrite bind_ret_state.
    destruct (Object___setattr___raises name v self) as [e ->]. reflexivity.
  - rewrite bind_ret_state.
    destruct (Object___delattr___raises name self) as [e ->]. reflexivity.
  - rewrite bind_ret_state. apply Object_getfield_state.
  - reflexivity.
  - reflexivity.
  - reflexivity.
Qed.

(** Nor does any sequence of such operations: by induction on the
    sequence. *)
Lemma Object_run_state (ops : list Object_op) (self : Object) :
  Forall (fun op => rewrites_fields op = false) ops -> Object_run B ops self = self.
Proof.
  intros H. revert self. induction H as [| op ops Hop _ IH]; intros self; simpl.
  - reflexivity.
  - unfold attempt.
    pose proof (Object_exec_state op self Hop) as E.
    destruct (Object_exec B op self) as [r self']. simpl in *. subst self'.
    apply IH.
Qed.

(** Run again on a constructed instance, [__init__] stores its two
    arguments. *)
Lemma Object_run_init (t : ObjectType) (i : string) (self : Object) :
  Object_run B [OpInit t i] self = {| type := t; id := i |}.
Proof. reflexivity. Qed.

(** C8, amended.  [Object] is frozen against assignment and deletion.
    Assigning to its [type] or to its [id] raises [FrozenInstanceError]
    and leaves the instance as it was; assigning to or deleting any
    attribute name at all raises and leaves it as it was; and after any
    sequence of assignments, deletions, reads, comparisons, hashes and
    [__getstate__] calls the instance has the [type] and [id] it was
    constructed with.  The generated [__init__] and [__setstate__] are
    the operations that store into a constructed instance: [__init__]
    called on it again replaces both fields by its arguments. *)
Theorem Object_frozen (self : Object) :
  (forall v,
      Object___setattr__ B "type" v self
        = (Raise (FrozenInstanceError ("cannot assign to field " ++ repr_str B "type")), self))
  /\ (forall v,
      Object___setattr__ B "id" v self
        = (Raise (FrozenInstanceError ("cannot assign to field " ++ repr_str B "id")), self))
  /\ (forall name v, exists e, Object___setattr__ B name v self = (Raise e, self))
  /\ (forall name, exists e, Object___delattr__ B name self = (Raise e, self))
  /\ (forall ops,
      Forall (fun op => rewrites_fields op = false) ops ->
      Object_run B ops self = self
      /\ type (Object_run B ops self) = type self
      /\ id (Object_run B ops self) = id self)
  /\ (forall t i, Object_run B [OpInit t i] self = {| type := t; id := i |}).
Proof.
  split; [| split; [| split; [| split; [| split]]]].
  - intros v. apply Object___setattr___field. simpl. tauto.
  - intros v. apply Object___setattr___field. simpl. tauto.
  - intros name v. apply Object___setattr___raises.
  - intros name. apply Object___delattr___raises.
  - intros ops H. rewrite (Object_run_state ops self H). repeat split.
  - intros t i. apply Object_run_init.
Qed.

(** [Decision] is frozen the same way. *)
Lemma Decision___setattr___allowed (v : value) (self : Decision) :
  Decision___setattr__ B "allowed" v self
    = (Raise (FrozenInstanceError ("cannot assign to field " ++ repr_str B "allowed")), self).
Proof.
  unfold Decision___setattr__.
  rewrite frozen_guard_field; [reflexivity | simpl; tauto].
Qed.

End Frozen.

(** C8, as stated, fails.  On the constructed instance
    [Object(type="user", id="123")] the class's own generated [__init__],
    called again with other arguments, replaces [type] and [id], and so
    does [__setstate__]: an operation does change the fields after
    construction. *)
Lemma Object_reinit_changes_fields :
  Object_run toy_builtins [OpInit "organization" "1"] checker.user_123
    = {| type := "organization"; id := "1" |}
  /\ type (Object_run toy_builtins [OpInit "organization" "1"] checker.user_123)
       <> type checker.user_123
  /\ id (Object_run toy_builtins [OpInit "organization" "1"] checker.user_123)
       <> id checker.user_123
  /\ Object_run toy_builtins [OpSetstate ["organization"; "1"]] checker.user_123
       <> checker.user_123.
Proof.
  split; [reflexivity | split; [| split]]; simpl; intros H; discriminate H.
Qed.

(** The amended statement at work: six operations of the kinds it lists,
    run on [Object(type="user", id="123")], leave it as it was. *)
Lemma Object_frozen_witness :
  Forall (fun op => rewrites_fields op = false)
         [OpSetattr "type" (VStr "admin"); OpDelattr "id"; OpGetfield "type";
          OpEq (VStr "user"); OpHash; OpGetstate]
  /\ Object_run toy_builtins
       [OpSetattr "type" (VStr "admin"); OpDelattr "id"; OpGetfield "type";
        OpEq (VStr "user"); OpHash; OpGetstate]
       checker.user_123
     = checker.user_123.
Proof.
  assert (H : Forall (fun op => rewrites_fields op = false)
                [OpSetattr "type" (VStr "admin"); OpDelattr "id"; OpGetfield "type";
                 OpEq (VStr "user"); OpHash; OpGetstate])
    by (repeat constructor).
  split; [exact H |].
  exact (proj1 (proj1 (proj2 (proj2 (proj2 (proj2
           (Object_frozen toy_builtins checker.user_123))))) _ H)).
Defined.

(** *** What a [Decision] holds *)

(** A [Decision] is determined by its [allowed] flag. *)
Lemma Decision_eta (d : Decision) : d = {| allowed := allowed d |}.
Proof. destruct d. reflexivity. Qed.

Lemma Decision_same_flag (d1 d2 : Decision) : allowed d1 = allowed d2 -> d1 = d2.
Proof. destruct d1, d2. simpl. intros ->. reflexivity. Qed.

(** C9, as stated, fails.  The slots of a [Decision] are [allowed] and
    nothing else, so an instance has no place to keep a token; and no way
    of building decisions from a flag and a snapshot token lets any
    reader get the token back, since two decisions with the same flag are
    the same value. *)
Lemma Decision_has_no_token :
  slots_of Decision_params Decision_fields = Some ["allowed"]
  /\ ~ (exists (decide_at : bool -> nat -> Decision) (token_of : Decision -> nat),
          forall b t, allowed (decide_at b t) = b /\ token_of (decide_at b t) = t).
Proof.
  split; [reflexivity |].
  intros (decide_at & token_of & H).
  destruct (H true 0) as [A0 T0], (H true 1) as [A1 T1].
  assert (E : decide_at true 0 = decide_at true 1)
    by (apply Decision_same_flag; congruence).
  rewrite E in T0. congruence.
Qed.

(** C9, amended.  A [Decision] carries the [allowed] boolean and nothing
    else: [allowed] is its only slot, reading it gives the flag, and two
    decisions are equal exactly when their flags are. *)
Theorem Decision_carries_only_allowed (B : builtins) (d1 d2 : Decision) :
  slots_of Decision_params Decision_fields = Some ["allowed"]
  /\ Decision_getfield B "allowed" d1 = (Return (VBool (allowed d1)), d1)
  /\ py_eq (VDecision d1) (VDecision d2) = Bool.eqb (allowed d1) (allowed d2)
  /\ (d1 = d2 <-> allowed d1 = allowed d2).
Proof.
  split; [reflexivity | split; [reflexivity | split]].
  - rewrite py_eq_Decision. unfold Decision_astuple. simpl. apply andb_true_r.
  - split; [intros ->; reflexivity | apply Decision_same_flag].
Qed.

(** *** Hashing *)

Section Hashing.

Variable B : builtins.

Lemma Object_hash_eq (a b : Object) :
  py_eq (VObject a) (VObject b) = true -> py_hash B (VObject a) = py_hash B (VObject b).
Proof.
  rewrite py_eq_Object, tuple_eq_true_iff. intros E. simpl.
  unfold Object___hash__. now rewrite E.
Qed.

Lemma Decision_hash_eq (a b : Decision) :
  py_eq (VDecision a) (VDecision b) = true ->
  py_hash B (VDecision a) = py_hash B (VDecision b).
Proof.
  rewrite py_eq_Decision, tuple_eq_true_iff. intros E. simpl.
  unfold Decision___hash__. now rewrite E.
Qed.

(** C10. [Object] and [Decision] are hashable, and their hashes agree
    with [==]: for both classes [@dataclass] adds the generated
    [__hash__] (it neither leaves the identity hash nor sets [__hash__]
    to [None]), and two equal instances have equal hashes, whatever the
    interpreter's hashes of strings and tuples are. *)
Theorem dataclass_hash_consistent :
  (hash_action_of Object_params = HashAdd /\ hash_action_of Decision_params = HashAdd)
  /\ (forall a b : Object,
        py_eq (VObject a) (VObject b) = true ->
        py_hash B (VObject a) = py_hash B (VObject b))
  /\ (forall a b : Decision,
        py_eq (VDecision a) (VDecision b) = true ->
        py_hash B (VDecision a) = py_hash B (VDecision b)).
Proof.
  split; [split; reflexivity | split].
  - exact Object_hash_eq.
  - exact Decision_hash_eq.
Qed.

End Hashing.

Lemma dataclass_hash_consistent_witness :
  py_eq (VObject checker.user_123) (VObject {| type := "user"; id := "123" |}) = true
  /\ py_hash toy_builtins (VObject checker.user_123)
       = py_hash toy_builtins (VObject {| type := "user"; id := "123" |})
  /\ py_eq (VDecision {| allowed := true |}) (VDecision {| allowed := true |}) = true
  /\ py_hash toy_builtins (VDecision {| allowed := true |})
       = py_hash toy_builtins (VDecision {| allowed := true |}).
Proof.
  split; [reflexivity | split; [| split; [reflexivity |]]].
  - apply (proj1 (proj2 (dataclass_hash_consistent toy_builtins))). reflexivity.
  - apply (proj2 (proj2 (dataclass_hash_consistent toy_builtins))). reflexivity.
Defined.

(* ================================================================== *)
(** ** Properties of [checker.py]                                     *)
(* ================================================================== *)

Import checker.

Section CheckerSpec.

Variable self : Checker.
Variables subject object : Object.
Variable relation : Relation.
Variable db : Database.

(** Awaiting [check] raises, and the database is as it was: the body
    reads none of its arguments and nothing of the state. *)
Lemma run_check_raises :
  run_check self subject relation object db
    = (Raise (NotImplementedError "Not implemented"), db).
Proof. reflexivity. Qed.

Lemma check_outcome_raises :
  check_outcome self subject relation object db
    = Raise (NotImplementedError "Not implemented").
Proof. unfold check_outcome. now rewrite run_check_raises. Qed.

(** The call itself does not raise: it hands back a coroutine. *)
Lemma Checker_check_is_coroutine :
  exists body, Checker_check self subject relation object = Coro body.
Proof. unfold Checker_check. eexists. reflexivity. Qed.

Lemma check_never_returns (d : Decision) :
  check_outcome self subject relation object db <> Return d.
Proof. rewrite check_outcome_raises. discriminate. Qed.

End CheckerSpec.

(** [__init__] raises before [Checker(db)] can hand an instance back. *)
Lemma Checker_new_raises (Any : Type) (arg : Any) (db : Database) :
  exists msg, Checker_new arg db = (Raise (NotImplementedError msg), db).
Proof. unfold Checker_new, bind, Checker___init__, raise. eexists. reflexivity. Qed.

(** C1, as stated, fails.  On [check(user:123, can_read, repository:456)]
    an internal error occurs, and the call does not resolve to a
    not-allowed [Decision]: the error reaches the caller. *)
Lemma check_error_not_denial :
  (exists e, check_outcome Build_Checker user_123 "can_read" repository_456 empty_db = Raise e)
  /\ check_outcome Build_Checker user_123 "can_read" repository_456 empty_db
       <> Return {| allowed := false |}.
Proof.
  rewrite check_outcome_raises. split.
  - eexists. reflexivity.
  - discriminate.
Qed.

(** C1, amended.  [Checker.check] never fails open: for every subject,
    relation and object the call does not return a [Decision] with
    [allowed=true]; the [NotImplementedError] raised inside it reaches
    the caller as an exception, and no decision is read off it. *)
Theorem check_never_allows (self : Checker) (subject : Object) (relation : Relation)
    (object : Object) (db : Database) :
  check_outcome self subject relation object db <> Return {| allowed := true |}
  /\ check_outcome self subject relation object db
       = Raise (NotImplementedError "Not implemented")
  /\ decided (check_outcome self subject relation object db) = None.
Proof.
  split; [apply check_never_returns | split].
  - apply check_outcome_raises.
  - now rewrite check_outcome_raises.
Qed.

(** C2. The stub checker always fails: [Checker(db)] raises
    [NotImplementedError] for every [db], of whatever type, and awaiting
    [check] raises [NotImplementedError] for every subject, relation and
    object instead of returning a [Decision]. *)
Theorem stub_checker_always_raises :
  (forall (Any : Type) (arg : Any) (db : Database),
      Checker_new arg db
        = (Raise (NotImplementedError
             "Melange Python runtime is not yet implemented. Use the Go runtime (github.com/pthm/melange/melange) for now."),
           db))
  /\ (forall self subject relation object db,
        run_check self subject relation object db
          = (Raise (NotImplementedError "Not implemented"), db)
        /\ forall d, check_outcome self subject relation object db <> Return d).
Proof.
  split.
  - intros Any arg db. reflexivity.
  - intros self subject relation object db. split.
    + apply run_check_raises.
    + apply check_never_returns.
Qed.

(** C3, as stated, fails.  With the tuple
    [(repository:456, can_read, user:123)] written,
    [check(user:123, can_read, repository:456)] does not return
    [allowed=true]; with no tuple at all,
    [check(user:999, can_read, repository:456)] does not return
    [allowed=false]. *)
Lemma check_scenarios_no_decision :
  check_outcome Build_Checker user_123 "can_read" repository_456 scenario_db
    <> Return {| allowed := true |}
  /\ check_outcome Build_Checker user_999 "can_read" repository_456 empty_db
    <> Return {| allowed := false |}.
Proof. split; apply check_never_returns. Qed.

(** C3, amended.  Whether or not the tuple
    [(repository:456, can_read, user:123)] has been written,
    [check(user:123, can_read, repository:456)] and
    [check(user:999, can_read, repository:456)] both raise
    [NotImplementedError] and leave the database as it was. *)
Theorem check_scenarios_raise (self : Checker) (db : Database) :
  run_check self user_123 "can_read" repository_456 db
    = (Raise (NotImplementedError "Not implemented"), db)
  /\ run_check self user_999 "can_read" repository_456 db
    = (Raise (NotImplementedError "Not implemented"), db).
Proof. split; apply run_check_raises. Qed.

(** C4, as stated, fails.  With [can_read] defined as
    [Union(owner, viewer)] and user:123 a viewer, [check] of [viewer] and
    of [owner] give no boolean to combine and [check] of [can_read] gives
    none to compare: no boolean at all is the result of
    [check(can_read)]. *)
Lemma check_union_not_or :
  In ("repository", "can_read", Union [ComputedUserset "owner"; ComputedUserset "viewer"])
     (model union_db)
  /\ ~ (exists r a b,
          decided (check_outcome Build_Checker user_123 "can_read" repository_456 union_db)
            = Some r
          /\ decided (check_outcome Build_Checker user_123 "owner" repository_456 union_db)
            = Some a
          /\ decided (check_outcome Build_Checker user_123 "viewer" repository_456 union_db)
            = Some b
          /\ r = a || b).
Proof.
  split.
  - simpl. right. right. left. reflexivity.
  - intros (r & a & b & Hr & _). rewrite check_outcome_raises in Hr. discriminate.
Qed.

(** C4, amended.  For every relation [R], however the model defines it
    (as a union, an intersection or an exclusion of [A] and [B], or
    otherwise), and for all subjects, objects and databases: [check] of
    [R], of [A] and of [B] end in the same [NotImplementedError], and
    none of the three produces a boolean. *)
Theorem check_combinators_raise (self : Checker) (subject object : Object)
    (R A B : Relation) (db : Database) :
  check_outcome self subject R object db = Raise (NotImplementedError "Not implemented")
  /\ check_outcome self subject R object db = check_outcome self subject A object db
  /\ check_outcome self subject R object db = check_outcome self subject B object db
  /\ decided (check_outcome self subject R object db) = None.
Proof.
  rewrite !check_outcome_raises. repeat split.
Qed.

(** Two calls in a row see the same thing. *)
Lemma twice_raise (W A : Type) (e : exn) (w : W) :
  twice (@raise W A e) w = (Return (Raise e, Raise e), w).
Proof. reflexivity. Qed.

(** C5. [check] is deterministic and idempotent at the call level: two
    invocations of [Checker.check] with the same arguments, the second
    against the state the first one left, end in the same outcome (here
    the same error), and the database is unchanged after both. *)
Theorem check_idempotent (self : Checker) (subject : Object) (relation : Relation)
    (object : Object) (db : Database) :
  exists r : outcome Decision,
    twice (await (Checker_check self subject relation object)) db = (Return (r, r), db).
Proof.
  exists (Raise (NotImplementedError "Not implemented")).
  unfold Checker_check, await. apply twice_raise.
Qed.

(** C6, as stated, fails.  On a tuple graph where group G1 contains G2
    and G2 contains G1, [check] of membership in G1 ends in an error, not
    in a not-allowed [Decision]. *)
Lemma check_cycle_errors :
  (exists e, check_outcome Build_Checker user_123 "member" group_G1 cyclic_db = Raise e)
  /\ check_outcome Build_Checker user_123 "member" group_G1 cyclic_db
       <> Return {| allowed := false |}.
Proof.
  rewrite check_outcome_raises. split.
  - eexists. reflexivity.
  - discriminate.
Qed.

(** C6, amended.  [check] terminates on every input, tuple graphs with a
    membership cycle included: the call always ends, in one step, by
    raising [NotImplementedError]; it reads no tuple, so it cannot hang
    on a cycle, and the outcome is the same for every database. *)
Theorem check_terminates_by_raising (self : Checker) (subject : Object)
    (relation : Relation) (object : Object) (db : Database) :
  run_check self subject relation object db
    = (Raise (NotImplementedError "Not implemented"), db)
  /\ check_outcome self subject relation object db
    = check_outcome self subject relation object cyclic_db.
Proof.
  split.
  - apply run_check_raises.
  - now rewrite !check_outcome_raises.
Qed.

(* ================================================================== *)
(** ** Further properties of [types.py]                               *)
(* ================================================================== *)

Section FrozenAndSlots.

Variable B : builtins.

Lemma Decision___setattr___raises (name : string) (v : value) (self : Decision) :
  exists e, Decision___setattr__ B name v self = (Raise e, self).
Proof.
  unfold Decision___setattr__, raise.
  destruct (frozen_guard B Decision_params Decision_fields name); eexists; reflexivity.
Qed.

Lemma Decision___delattr___raises (name : string) (self : Decision) :
  exists e, Decision___delattr__ B name self = (Raise e, self).
Proof.
  unfold Decision___delattr__, raise.
  destruct (frozen_guard B Decision_params Decision_fields name); eexists; reflexivity.
Qed.

Lemma Decision_exec_state (op : Decision_op) (self : Decision) :
  snd (Decision_exec B op self) = self.
Proof.
  destruct op as [name v | name | name | other | ]; unfold Decision_exec.
  - rewrite bind_ret_state.
    destruct (Decision___setattr___raises name v self) as [e ->]. reflexivity.
  - rewrite bind_ret_state.
    destruct (Decision___delattr___raises name self) as [e ->]. reflexivity.
  - rewrite bind_ret_state. unfold Decision_getfield.
    destruct (String.eqb name "allowed"); reflexivity.
  - reflexivity.
  - reflexivity.
Qed.

(** X1. A [Decision] is frozen: assigning to [allowed] or deleting it
    raises [FrozenInstanceError], assigning to or deleting any name
    raises, each leaving the instance as it was; and whatever sequence of
    assignments, deletions, reads, comparisons and hashes a client runs
    on a decision, its [allowed] flag is the one it was built with: a
    denial cannot be turned into a grant after the fact. *)
Theorem Decision_frozen (self : Decision) :
  (forall v,
      Decision___setattr__ B "allowed" v self
        = (Raise (FrozenInstanceError ("cannot assign to field " ++ repr_str B "allowed")),
           self))
  /\ Decision___delattr__ B "allowed" self
        = (Raise (FrozenInstanceError ("cannot delete field " ++ repr_str B "allowed")), self)
  /\ (forall name v, exists e, Decision___setattr__ B name v self = (Raise e, self))
  /\ (forall name, exists e, Decision___delattr__ B name self = (Raise e, self))
  /\ (forall ops, allowed (Decision_run B ops self) = allowed self).
Proof.
  repeat apply conj.
  - intros v. apply Decision___setattr___allowed.
  - unfold Decision___delattr__.
    rewrite frozen_guard_field; [reflexivity | simpl; tauto].
  - intros name v. apply Decision___setattr___raises.
  - intros name. apply Decision___delattr___raises.
  - intros ops. revert self. induction ops as [| op ops IH]; intros self; simpl.
    + reflexivity.
    + unfold attempt.
      pose proof (Decision_exec_state op self) as H.
      destruct (Decision_exec B op self) as [r self']. simpl in *. subst self'.
      apply IH.
Qed.

(** What [__setstate__] leaves, by the length of the state. *)
Lemma Object___setstate___short (self : Object) (t : string) :
  snd (Object___setstate__ [] self) = self
  /\ snd (Object___setstate__ [t] self) = {| type := t; id := id self |}.
Proof. split; reflexivity. Qed.

(** X6. With [slots=True] an [Object] holds its two declared fields and
    no other data: its slots are [type] and [id]; reading [type] or [id]
    gives the value it was built with; the state [__getstate__] hands
    out is exactly those two values, in that order; [__setstate__] given
    the state of another [Object] makes the instance equal to that
    object, whatever it held, which is the round trip that copying and
    pickling rest on; and no attribute can be added, since every
    assignment raises. *)
Theorem Object_data_attributes (self other : Object) :
  slots_of Object_params Object_fields = Some ["type"; "id"]
  /\ Object_getfield B "type" self = (Return (VStr (type self)), self)
  /\ Object_getfield B "id" self = (Return (VStr (id self)), self)
  /\ Object___getstate__ self = [VStr (type self); VStr (id self)]
  /\ Object___getstate__ (snd (Object___setstate__ [type other; id other] self))
       = Object___getstate__ other
  /\ py_eq (VObject (snd (Object___setstate__ [type other; id other] self)))
           (VObject other) = true
  /\ (forall name v, exists e, Object___setattr__ B name v self = (Raise e, self)).
Proof.
  split; [reflexivity |].
  split; [reflexivity |].
  split; [reflexivity |].
  split; [reflexivity |].
  split; [reflexivity |].
  split.
  - apply py_eq_Object_true_iff. destruct other. reflexivity.
  - intros name v. apply Object___setattr___raises.
Qed.

End FrozenAndSlots.

(** *** [==] over the values of the package *)

Lemma dunder_eq_same_class (v w : value) :
  class_of v = class_of w -> exists b, dunder_eq v w = Cmp b.
Proof.
  destruct v, w; simpl; intros H; try discriminate; eexists; reflexivity.
Qed.

(** X2. [==] between values of the package is equality of content: two
    strings, booleans, [Object]s or [Decision]s compare equal exactly
    when they are the same value, so [==] is reflexive and gives the same
    answer with its operands swapped, values of different classes
    included. *)
Theorem py_eq_structural (v w : value) :
  (py_eq v w = true <-> v = w)
  /\ py_eq v w = py_eq w v
  /\ py_eq v v = true.
Proof.
  assert (R : forall x y : value, py_eq x y = true <-> x = y).
  { intros x y. destruct x as [s | b | o | d], y as [t | c | o' | d'];
      try (split; [intros H; discriminate H | intros H; discriminate H]).
    - unfold py_eq. simpl. rewrite String.eqb_eq. split; congruence.
    - unfold py_eq. simpl. rewrite Bool.eqb_true_iff. split; congruence.
    - rewrite py_eq_Object_true_iff. split; congruence.
    - rewrite py_eq_Decision_true_iff. split; congruence. }
  split; [apply R | split].
  - apply Bool.eq_iff_eq_true. rewrite !R. split; congruence.
  - apply R. reflexivity.
Qed.

(** X3. Comparing values of two different classes, say an [Object] with
    a [Decision] or with a string: the [__eq__] of either side returns
    [NotImplemented], and [==] is [False] in both orders. *)
Theorem eq_other_class (v w : value) :
  class_of v <> class_of w ->
  dunder_eq v w = NotImplemented
  /\ dunder_eq w v = NotImplemented
  /\ py_eq v w = false
  /\ py_eq w v = false.
Proof.
  intros H. unfold py_eq.
  destruct v, w; simpl in *; try (contradiction H; reflexivity); repeat split.
Qed.

Lemma eq_other_class_witness :
  class_of (VObject user_123) <> class_of (VDecision {| allowed := true |})
  /\ dunder_eq (VObject user_123) (VDecision {| allowed := true |}) = NotImplemented
  /\ dunder_eq (VDecision {| allowed := true |}) (VObject user_123) = NotImplemented
  /\ py_eq (VObject user_123) (VDecision {| allowed := true |}) = false
  /\ py_eq (VDecision {| allowed := true |}) (VObject user_123) = false.
Proof.
  assert (H : class_of (VObject user_123) <> class_of (VDecision {| allowed := true |}))
    by (simpl; discriminate).
  split; [exact H |].
  exact (eq_other_class (VObject user_123) (VDecision {| allowed := true |}) H).
Defined.

(* ================================================================== *)
(** ** Further properties of [checker.py]                             *)
(* ================================================================== *)

(** X4. Nothing can follow [Checker(db)]: whatever a program does next
    with the checker, it ends in the constructor's
    [NotImplementedError] with the database untouched.  So the usage the
    docstrings show fails on its first line, with the message that points
    to the Go runtime, and never reaches the body of [check]. *)
Theorem constructor_blocks_usage (Any R : Type) (pool : Any)
    (rest : Checker -> M Database R) (subject : Object) (relation : Relation)
    (object : Object) (db : Database) :
  bind (Checker_new pool) rest db
    = (Raise (NotImplementedError
         "Melange Python runtime is not yet implemented. Use the Go runtime (github.com/pthm/melange/melange) for now."),
       db)
  /\ documented_usage pool subject relation object db
    = (Raise (NotImplementedError
         "Melange Python runtime is not yet implemented. Use the Go runtime (github.com/pthm/melange/melange) for now."),
       db)
  /\ fst (documented_usage pool subject relation object db)
       <> Raise (NotImplementedError "Not implemented").
Proof.
  assert (G : forall (T : Type) (k : Checker -> M Database T),
             bind (Checker_new pool) k db
             = (Raise (NotImplementedError
                  "Melange Python runtime is not yet implemented. Use the Go runtime (github.com/pthm/melange/melange) for now."),
                db)).
  { intros T k. unfold Checker_new, bind, Checker___init__, raise. reflexivity. }
  split; [apply G | split].
  - unfold documented_usage. apply G.
  - unfold documented_usage. rewrite G. simpl. intros E. discriminate E.
Qed.

(** X5. However many [check] calls a client makes on a checker, and
    with whatever arguments, every one of them ends in
    [NotImplementedError], none returns a [Decision], and the database
    after the last call is the one before the first. *)
Theorem check_all_raises (self : Checker) (calls : list check_call) (db : Database) :
  check_all self calls db
    = (Return (map (fun _ => Raise (NotImplementedError "Not implemented")) calls), db).
Proof.
  induction calls as [| c calls IH]; simpl.
  - reflexivity.
  - unfold bind at 1. unfold attempt, Checker_check, await, raise.
    unfold bind at 1. rewrite IH. reflexivity.
Qed.

(* ================================================================== *)
(** ** Properties of [__init__.py]                                    *)
(* ================================================================== *)

Import package.

(** What a [from module import ...] leaves behind: each imported name is
    bound to the very object the module holds under that name, and every
    other name keeps the binding it had. *)
Lemma import_names_lookup (module : string) (src : namespace) (names : list string)
    (ns ns' : namespace) (x : string) :
  import_names module src names ns = inl ns' ->
  lookup x ns' = if existsb (String.eqb x) names then lookup x src else lookup x ns.
Proof.
  revert ns. induction names as [| n names IH]; intros ns H; simpl in *.
  - injection H as <-. reflexivity.
  - destruct (lookup n src) as [b |] eqn:L; [| discriminate H].
    rewrite (IH _ H). simpl.
    destruct (existsb (String.eqb x) names).
    + now rewrite orb_true_r.
    + rewrite orb_false_r. destruct (String.eqb_spec x n) as [-> | _].
      * symmetry. exact L.
      * reflexivity.
Qed.

(** An import raises exactly when the module lacks one of the names. *)
Lemma import_names_ok (module : string) (src : namespace) (names : list string)
    (ns : namespace) :
  (exists ns', import_names module src names ns = inl ns')
  <-> Forall (fun n => lookup n src <> None) names.
Proof.
  revert ns. induction names as [| n names IH]; intros ns; simpl.
  - split; [constructor | eexists; reflexivity].
  - destruct (lookup n src) as [b |] eqn:L.
    + rewrite IH. split.
      * intros H. constructor; [congruence | exact H].
      * intros H. inversion H. assumption.
    + split.
      * intros [ns' H]. discriminate H.
      * intros H. inversion H. congruence.
Qed.

(** X7. Importing the package succeeds, and it exports what it defines:
    every name listed in [__all__] is bound in [melange], to the class or
    alias of that name created in [melange.types] or [melange.checker];
    so [from melange import *] raises nothing and binds exactly the names
    of [__all__]; and [Object], [Decision] and [Relation] are the same
    objects in [melange], in [melange.checker] and in [melange.types],
    so an [Object] built through any of the three has the one class
    that the generated [__eq__] tests for. *)
Theorem package_exports_defined :
  exists types_ns checker_ns melange_ns : namespace,
    load_package = inl (types_ns, checker_ns, melange_ns)
    /\ Forall (fun name =>
                 exists b, lookup name melange_ns = Some b
                           /\ symbol b = name
                           /\ (home b = "melange.types" \/ home b = "melange.checker"))
              __all__
    /\ (exists star, star_import melange_ns = inl star
                     /\ forall x, lookup x star
                                  = if existsb (String.eqb x) __all__
                                    then lookup x melange_ns else None)
    /\ Forall (fun name =>
                 lookup name melange_ns = lookup name types_ns
                 /\ lookup name checker_ns = lookup name types_ns
                 /\ lookup name types_ns <> None)
              ["Object"; "Decision"; "Relation"].
Proof.
  destruct load_package as [[[types_ns checker_ns] melange_ns] | e] eqn:L;
    [| discriminate L].
  exists types_ns, checker_ns, melange_ns.
  injection L as <- <- <-.
  split; [reflexivity | split; [| split]].
  - repeat constructor; eexists; (split; [reflexivity | split; [reflexivity | tauto]]).
  - destruct (star_import _) as [star | e] eqn:S; [| discriminate S].
    exists star. split; [reflexivity |].
    intros x. unfold star_import in S.
    rewrite (import_names_lookup _ _ _ _ _ x S).
    destruct (existsb (String.eqb x) __all__); reflexivity.
  - repeat constructor; simpl; discriminate.
Qed.
